(** * Authentication core of the RE Platform backend

    Shallow embedding of [app/models/user.py], [app/schemas/user.py],
    [app/schemas/token.py], [app/services/auth_service.py],
    [app/core/deps.py], [app/api/v1/auth.py] and [scripts/seed_admin.py].  The database session is modelled as explicit state
    (a list of rows plus the next primary key) threaded through a small
    state/exception monad; an [HTTPException] raised by the code is the
    [inl] branch of the monad's result. *)

From Stdlib Require Import ZArith String Ascii List Bool Lia.
Import ListNotations.
Open Scope string_scope.
Open Scope Z_scope.

(** ** Models *)

(** [class UserRole(PyEnum)] *)
Inductive UserRole : Type := ADMIN | ANALYST | VIEWER.

(** [UserRole.value] *)
Definition UserRole_value (r : UserRole) : string :=
  match r with
  | ADMIN => "admin"
  | ANALYST => "analyst"
  | VIEWER => "viewer"
  end.

(** Python's [!=] / [==] on enum members. *)
Definition UserRole_eqb (a b : UserRole) : bool :=
  match a, b with
  | ADMIN, ADMIN | ANALYST, ANALYST | VIEWER, VIEWER => true
  | _, _ => false
  end.

(** A row of the [users] table ([class User(Base)]).  Timestamps are
    seconds as [Z]. *)
Module User.
Record t : Type := mk {
  id : Z;
  username : string;
  email : string;
  hashed_password : string;
  full_name : option string;
  role : UserRole;
  is_active : bool;
  is_verified : bool;
  created_at : Z;
  updated_at : option Z;
  last_login : option Z
}.

(** The UPDATE issued by [user.last_login = datetime.utcnow(); commit()]:
    [last_login] gets the Python clock, and the column [updated_at], declared
    with [onupdate=func.now()], gets the database clock. *)
Definition touch_last_login (utcnow db_now : Z) (u : t) : t :=
  mk (id u) (username u) (email u) (hashed_password u) (full_name u)
     (role u) (is_active u) (is_verified u) (created_at u)
     (Some db_now) (Some utcnow).

Definition set_hashed_password (h : string) (u : t) : t :=
  mk (id u) (username u) (email u) h (full_name u)
     (role u) (is_active u) (is_verified u) (created_at u)
     (updated_at u) (last_login u).
End User.

(** The database as seen by one session: the rows of [users] in table order
    and the next value of the [id] sequence. *)
Record DB : Type := mkDB {
  users : list User.t;
  next_id : Z
}.

(** ** Schemas *)

(** The JSON body of [POST /auth/register] as the client sends it.  Fields
    with a default in [UserBase] are optional; [extra_is_verified] stands for
    any extra key such as ["is_verified"], which pydantic ignores. *)
Module RegisterBody.
Record t : Type := mk {
  username : string;
  email : string;
  password : string;
  full_name : option string;
  role : option UserRole;
  is_active : option bool;
  extra_is_verified : option bool
}.

Definition set_password (pw : string) (b : t) : t :=
  mk (username b) (email b) pw (full_name b) (role b) (is_active b) (extra_is_verified b).
End RegisterBody.

(** [class UserCreate(UserBase)] after validation. *)
Module UserCreate.
Record t : Type := mk {
  username : string;
  email : string;
  full_name : option string;
  role : UserRole;
  is_active : bool;
  password : string
}.
End UserCreate.

(** [class UserLogin(BaseModel)] *)
Module UserLogin.
Record t : Type := mk {
  username : string;
  password : string
}.
End UserLogin.

(** [class UserResponse(UserBase)]: exactly the fields it declares. *)
Module UserResponse.
Record t : Type := mk {
  username : string;
  email : string;
  full_name : option string;
  role : UserRole;
  is_active : bool;
  id : Z;
  is_verified : bool;
  created_at : Z;
  updated_at : option Z;
  last_login : option Z
}.

(** [from_attributes = True]: the response is read off the ORM object. *)
Definition of_user (u : User.t) : t :=
  mk (User.username u) (User.email u) (User.full_name u) (User.role u)
     (User.is_active u) (User.id u) (User.is_verified u) (User.created_at u)
     (User.updated_at u) (User.last_login u).
End UserResponse.

(** The claims dict passed to [create_access_token]:
    [{"sub": ..., "user_id": ..., "role": ...}]. *)
Module TokenData.
Record t : Type := mk {
  username : string;
  user_id : Z;
  role : string
}.
End TokenData.

(** Modelled from the spec: the encoded bearer token produced by
    [create_access_token] in [app/core/security.py] (not in the sources):
    the claims, the absolute expiry, and the signature over both. *)
Module Jwt.
Record t : Type := mk {
  claims : TokenData.t;
  exp : Z;
  signature : string
}.
End Jwt.

(** [class Token(BaseModel)] *)
Module Token.
Record t : Type := mk {
  access_token : Jwt.t;
  token_type : string;
  expires_in : Z
}.
End Token.

(** [class Settings]: the fields the core reads. *)
Record Settings : Type := mkSettings {
  SECRET_KEY : string;
  ACCESS_TOKEN_EXPIRE_MINUTES : Z
}.

(** ** Exceptions and the session monad *)

(** [fastapi.HTTPException] *)
Record HTTPException : Type := mkHTTPException {
  status_code : Z;
  detail : string;
  headers : list (string * string)
}.

Definition HTTP_400_BAD_REQUEST : Z := 400.
Definition HTTP_401_UNAUTHORIZED : Z := 401.
Definition HTTP_403_FORBIDDEN : Z := 403.

(** [create_user]: "Username or email already registered". *)
Definition conflict_exc : HTTPException :=
  mkHTTPException HTTP_400_BAD_REQUEST "Username or email already registered" [].

(** [login_user]: "Incorrect username or password". *)
Definition invalid_credentials_exc : HTTPException :=
  mkHTTPException HTTP_401_UNAUTHORIZED "Incorrect username or password"
    [("WWW-Authenticate", "Bearer")].

(** [get_current_user]: [credentials_exception]. *)
Definition credentials_exception : HTTPException :=
  mkHTTPException HTTP_401_UNAUTHORIZED "Could not validate credentials"
    [("WWW-Authenticate", "Bearer")].

(** [get_current_user] / [get_current_active_user]: "Inactive user". *)
Definition inactive_user_exc : HTTPException :=
  mkHTTPException HTTP_400_BAD_REQUEST "Inactive user" [].

(** [role_checker]: "Not enough permissions". *)
Definition forbidden_exc : HTTPException :=
  mkHTTPException HTTP_403_FORBIDDEN "Not enough permissions" [].

(** An exception the code does not catch (a database error, a failed
    [response_model] validation): Starlette's [ServerErrorMiddleware] answers
    500. *)
Definition internal_server_error : HTTPException :=
  mkHTTPException 500 "Internal Server Error" [].

(** [HTTPBearer()] ([auto_error=True]): no usable credentials. *)
Definition not_authenticated_exc : HTTPException :=
  mkHTTPException HTTP_403_FORBIDDEN "Not authenticated" [].

(** [HTTPBearer()]: a scheme other than [bearer]. *)
Definition invalid_auth_credentials_exc : HTTPException :=
  mkHTTPException HTTP_403_FORBIDDEN "Invalid authentication credentials" [].

Definition M (A : Type) : Type := DB -> (HTTPException + A) * DB.

Definition ret {A} (a : A) : M A := fun db => (inr a, db).
Definition raise {A} (e : HTTPException) : M A := fun db => (inl e, db).
Definition bind {A B} (m : M A) (k : A -> M B) : M B :=
  fun db => match m db with
            | (inl e, db') => (inl e, db')
            | (inr a, db') => k a db'
            end.
Definition gets {A} (f : DB -> A) : M A := fun db => (inr (f db), db).
Definition modify (f : DB -> DB) : M unit := fun db => (inr tt, f db).

Notation "x <- c ;; k" := (bind c (fun x => k))
  (at level 61, c at next level, right associativity).

(** ** Concrete instances used to exercise the theorems *)

Module Demo.
(** A toy salted hasher (the salt is ignored) and its verifier. *)
Definition hash (pw : string) (_ : unit) : string := "h:" ++ pw.
Definition verify (pw h : string) : bool := String.eqb ("h:" ++ pw) h.
Definition sign (key : string) (d : TokenData.t) (exp : Z) : string :=
  key ++ ":" ++ TokenData.username d.
Definition validate_email (s : string) : option string :=
  if existsb (fun c => Ascii.eqb c "@"%char) (list_ascii_of_string s) then Some s else None.

Definition admin : User.t :=
  User.mk 1 "admin" "admin@example.com" (hash "admin123!" tt) None ADMIN true false 0
    None None.
Definition db0 : DB := mkDB [admin] 2.
Definition login0 : UserLogin.t := UserLogin.mk "admin" "admin123!".

(** A registration body that also sends ["is_verified": true]. *)
Definition body : RegisterBody.t :=
  RegisterBody.mk "analyst1" "a1@example.com" "password123" None (Some ANALYST) None
    (Some true).
Definition user_data : UserCreate.t :=
  UserCreate.mk "analyst1" "a1@example.com" None ANALYST true "password123".
Definition created : User.t :=
  User.mk 2 "analyst1" "a1@example.com" "h:password123" None ANALYST true false 5 None None.
Definition claims0 : TokenData.t := TokenData.mk "admin" 1 "admin".

Definition settings0 : Settings := mkSettings "secret" 30.
Definition viewer : User.t :=
  User.mk 3 "viewer1" "v1@example.com" (hash "viewerpass" tt) None VIEWER true false 0
    None None.
Definition db1 : DB := mkDB [admin; viewer] 4.
(** Tokens signed with [settings0]'s key, expiring at time 1800. *)
Definition admin_token : Jwt.t :=
  Jwt.mk claims0 1800 (sign "secret" claims0 1800).
Definition viewer_token : Jwt.t :=
  Jwt.mk (TokenData.mk "viewer1" 3 "viewer") 1800
    (sign "secret" (TokenData.mk "viewer1" 3 "viewer") 1800).
Definition empty_db : DB := mkDB [] 1.
Definition seeded : User.t :=
  User.mk 1 "admin" "admin@re-platform.local" "h:admin123!" (Some "System Administrator")
    ADMIN true true 0 None None.
(** A valid address of 105 characters: a 60-character local part and a
    44-character domain, within the 64 / 254 limits of [EmailStr]. *)
Definition long_email : string :=
  "aaaaaaaaaaaaaaaaaaaaaaaaaaaaaaaaaaaaaaaaaaaaaaaaaaaaaaaaaaaa@bbbbbbbbbbbbbbbbbbbbbbbbbbbbbbbbbbbbbbbb.com".
Definition long_body : RegisterBody.t :=
  RegisterBody.mk "analyst1" long_email "password123" None None None None.
Definition long_user_data : UserCreate.t :=
  UserCreate.mk "analyst1" long_email None VIEWER true "password123".
(** A token whose signature is not [settings0]'s. *)
Definition forged_token : Jwt.t :=
  Jwt.mk claims0 1800 (sign "other" claims0 1800).
End Demo.

Section Backend.

(** Modelled from the spec: the Credential Hasher of [app/core/security.py]
    (not in the sources).  [get_password_hash] is salted, so it takes the
    random salt drawn by the call; [verify_password] is an opaque predicate. *)
Variable Salt : Type.
Variable get_password_hash : string -> Salt -> string.
Variable verify_password : string -> string -> bool.

(** Modelled from the spec: the signing function of the Token Codec
    (HMAC of the claims and expiry under the secret key). *)
Variable sign : string -> TokenData.t -> Z -> string.

(** pydantic's [EmailStr] (email-validator): [None] when the address is
    rejected, otherwise the normalized address (domain lowercased, ...) that
    the validated model holds. *)
Variable validate_email : string -> option string.

(** ** Schema validation *)

(** Number of characters (code points) of a UTF-8 encoded string: the bytes
    that are not continuation bytes [10xxxxxx].  Python's [len] and
    Postgres's [varchar(n)] both count these. *)
Fixpoint char_length (s : string) : nat :=
  match s with
  | EmptyString => 0
  | String c s' =>
      let n := nat_of_ascii c in
      if (128 <=? n)%nat && (n <? 192)%nat then char_length s' else S (char_length s')
  end.

Definition len_between (lo hi : nat) (s : string) : bool :=
  (lo <=? char_length s)%nat && (char_length s <=? hi)%nat.

(** Building [UserCreate] from the request body: the [Field] bounds of
    [UserBase] / [UserCreate], the defaults [role = UserRole.VIEWER] and
    [is_active = True], extra keys ignored, and [email] replaced by the
    normalized address [EmailStr] returns.  [None] is a 422. *)
Definition parse_UserCreate (b : RegisterBody.t) : option UserCreate.t :=
  match validate_email (RegisterBody.email b) with
  | None => None
  | Some email =>
      if len_between 3 50 (RegisterBody.username b)
         && match RegisterBody.full_name b with
            | Some n => len_between 0 100 n
            | None => true
            end
         && len_between 8 100 (RegisterBody.password b)
      then Some (UserCreate.mk (RegisterBody.username b) email
                   (RegisterBody.full_name b)
                   (match RegisterBody.role b with Some r => r | None => VIEWER end)
                   (match RegisterBody.is_active b with Some a => a | None => true end)
                   (RegisterBody.password b))
      else None
  end.

(** ** Token Codec *)

(** Modelled from the spec: [create_access_token(data, expires_delta)]
    embeds the claims and the absolute expiry [now + expires_delta] and
    signs them. *)
Definition create_access_token (key : string) (now : Z) (data : TokenData.t)
    (expires_delta : Z) : Jwt.t :=
  let expire := now + expires_delta in
  Jwt.mk data expire (sign key data expire).

Inductive DecodeError : Type := InvalidSignature | Expired.

(** Modelled from the spec: [decode] checks the signature first, then the
    expiry (failing at or past it), and only then returns the claims. *)
Definition decode (key : string) (now : Z) (tok : Jwt.t) : DecodeError + TokenData.t :=
  if String.eqb (sign key (Jwt.claims tok) (Jwt.exp tok)) (Jwt.signature tok) then
    if now <? Jwt.exp tok then inr (Jwt.claims tok) else inl Expired
  else inl InvalidSignature.

(** Modelled from the spec: [verify_token] surfaces both decode failures as
    Unauthenticated, i.e. the 401 [credentials_exception]. *)
Definition verify_token (key : string) (now : Z) (tok : Jwt.t) : M TokenData.t :=
  match decode key now tok with
  | inl _ => raise credentials_exception
  | inr d => ret d
  end.

(** ** Store queries *)

(** [select(User).where(User.id == user_id)] then [.scalars().first()]. *)
Definition get_user_by_id (db : DB) (user_id : Z) : option User.t :=
  find (fun u => User.id u =? user_id) (users db).

(** [select(User).where(User.username == username)] then [.first()]. *)
Definition get_user_by_username (db : DB) (username : string) : option User.t :=
  find (fun u => String.eqb (User.username u) username) (users db).

(** [select(User).where((User.username == ..) | (User.email == ..))]. *)
Definition find_username_or_email (db : DB) (username email : string)
    : option User.t :=
  find (fun u => String.eqb (User.username u) username
                 || String.eqb (User.email u) email) (users db).

(** The [varchar] bounds of the columns [username String(50)],
    [email String(100)] and [full_name String(100)].  ([hashed_password
    String(255)] holds a bcrypt-class hash, which is 60 characters.) *)
Definition fits_columns (username email : string) (full_name : option string) : bool :=
  (char_length username <=? 50)%nat && (char_length email <=? 100)%nat
  && match full_name with
     | Some n => (char_length n <=? 100)%nat
     | None => true
     end.

(** [db.add(db_user); commit(); refresh(db_user)]: the sequence gives [id],
    [is_verified] takes its column default [False], [created_at] its server
    default [now()], and [updated_at] / [last_login] stay NULL.  A value too
    long for its column makes Postgres reject the INSERT (raised while the
    INSERT with its bound values is planned, before the [id] default is
    drawn); the exception is not caught, [get_db] rolls back, and the client
    gets the 500. *)
Definition add_commit_refresh (db_now : Z) (username email hashed_password : string)
    (full_name : option string) (role : UserRole) (is_active : bool) : M User.t :=
  fun db =>
    if fits_columns username email full_name then
      let db_user := User.mk (next_id db) username email hashed_password full_name
                       role is_active false db_now None None in
      (inr db_user, mkDB (users db ++ [db_user]) (next_id db + 1))
    else (inl internal_server_error, db).

(** The UPDATE of the row with primary key [uid]. *)
Definition update_row (uid : Z) (f : User.t -> User.t) (db : DB) : DB :=
  mkDB (map (fun v => if User.id v =? uid then f v else v) (users db)) (next_id db).

(** ** AuthService *)

(** [AuthService.create_user] *)
Definition create_user (salt : Salt) (db_now : Z) (user_data : UserCreate.t)
    : M User.t :=
  existing_user <- gets (fun db => find_username_or_email db
                           (UserCreate.username user_data) (UserCreate.email user_data)) ;;
  match existing_user with
  | Some _ => raise conflict_exc
  | None =>
      let hashed_password := get_password_hash (UserCreate.password user_data) salt in
      add_commit_refresh db_now (UserCreate.username user_data) (UserCreate.email user_data)
        hashed_password (UserCreate.full_name user_data) (UserCreate.role user_data)
        (UserCreate.is_active user_data)
  end.

(** [AuthService.authenticate_user]; [utcnow] is [datetime.utcnow()],
    [db_now] the database's [now()] used by the [onupdate] of [updated_at]. *)
Definition authenticate_user (utcnow db_now : Z) (login_data : UserLogin.t)
    : M (option User.t) :=
  user <- gets (fun db => get_user_by_username db (UserLogin.username login_data)) ;;
  match user with
  | None => ret None
  | Some user =>
      if negb (verify_password (UserLogin.password login_data) (User.hashed_password user))
      then ret None
      else if negb (User.is_active user) then ret None
      else
        _ <- modify (update_row (User.id user) (User.touch_last_login utcnow db_now)) ;;
        ret (Some (User.touch_last_login utcnow db_now user))
  end.

(** [AuthService.login_user]; the token is issued at [utcnow]. *)
Definition login_user (settings : Settings) (utcnow db_now : Z) (login_data : UserLogin.t)
    : M Token.t :=
  user <- authenticate_user utcnow db_now login_data ;;
  match user with
  | None => raise invalid_credentials_exc
  | Some user =>
      let access_token_expires := ACCESS_TOKEN_EXPIRE_MINUTES settings * 60 in
      let access_token :=
        create_access_token (SECRET_KEY settings) utcnow
          (TokenData.mk (User.username user) (User.id user) (UserRole_value (User.role user)))
          access_token_expires in
      ret (Token.mk access_token "bearer" (ACCESS_TOKEN_EXPIRE_MINUTES settings * 60))
  end.

(** ** Dependencies ([app/core/deps.py]) *)

(** [get_current_user]; [token] is [token.credentials], the token
    [HTTPBearer] extracted ([http_bearer] below models that step; the
    dependency chains here start after it). *)
Definition get_current_user (settings : Settings) (now : Z) (token : Jwt.t) : M User.t :=
  token_data <- verify_token (SECRET_KEY settings) now token ;;
  user <- gets (fun db => get_user_by_id db (TokenData.user_id token_data)) ;;
  match user with
  | None => raise credentials_exception
  | Some user =>
      if negb (User.is_active user) then raise inactive_user_exc else ret user
  end.

(** [get_current_active_user] *)
Definition get_current_active_user (current_user : User.t) : M User.t :=
  if negb (User.is_active current_user) then raise inactive_user_exc else ret current_user.

(** [role_checker] inside [require_role(required_role)]. *)
Definition role_checker (required_role : UserRole) (current_user : User.t) : M User.t :=
  if negb (UserRole_eqb (User.role current_user) required_role)
     && negb (UserRole_eqb (User.role current_user) ADMIN)
  then raise forbidden_exc
  else ret current_user.

(** [Depends(require_role(r))]: the dependency chain resolved by FastAPI. *)
Definition require_role (required_role : UserRole) (settings : Settings) (now : Z)
    (token : Jwt.t) : M User.t :=
  u <- get_current_user settings now token ;;
  u <- get_current_active_user u ;;
  role_checker required_role u.

(** ** Endpoints ([app/api/v1/auth.py]) *)

(** [POST /register] with [response_model=UserResponse]; [None] from the
    body parser stands for pydantic's 422.  The response check re-validates
    fields the body already passed (the stored email is the normalized one),
    so it is not modelled here. *)
Definition http_422 : HTTPException := mkHTTPException 422 "Validation error" [].

Definition register (settings : Settings) (now : Z) (token : Jwt.t) (salt : Salt)
    (db_now : Z) (body : RegisterBody.t) : M UserResponse.t :=
  _ <- require_role ADMIN settings now token ;;
  match parse_UserCreate body with
  | None => raise http_422
  | Some user_data =>
      user <- create_user salt db_now user_data ;;
      ret (UserResponse.of_user user)
  end.

(** FastAPI's [response_model=UserResponse] validation of a returned row:
    the [UserBase] field checks, [email] through [EmailStr] (normalized). *)
Definition validate_UserResponse (u : User.t) : option UserResponse.t :=
  match validate_email (User.email u) with
  | None => None
  | Some email =>
      if len_between 3 50 (User.username u)
         && match User.full_name u with
            | Some n => len_between 0 100 n
            | None => true
            end
      then Some (UserResponse.mk (User.username u) email (User.full_name u) (User.role u)
                   (User.is_active u) (User.id u) (User.is_verified u) (User.created_at u)
                   (User.updated_at u) (User.last_login u))
      else None
  end.

(** [GET /me] with [response_model=UserResponse]: a row the response model
    rejects is a 500. *)
Definition get_current_user_info (settings : Settings) (now : Z) (token : Jwt.t)
    : M UserResponse.t :=
  u <- get_current_user settings now token ;;
  u <- get_current_active_user u ;;
  match validate_UserResponse u with
  | None => raise internal_server_error
  | Some r => ret r
  end.

(** The [Authorization] header after [get_authorization_scheme_param]: the
    scheme and the credentials that follow the first space, which are empty
    or an encoded token. *)
Inductive Credentials : Type := NoCredentials | Encoded (token : Jwt.t).

Definition ascii_lower (c : ascii) : ascii :=
  let n := nat_of_ascii c in
  if (65 <=? n)%nat && (n <=? 90)%nat then ascii_of_nat (n + 32) else c.

Fixpoint string_lower (s : string) : string :=
  match s with
  | EmptyString => EmptyString
  | String c s' => String (ascii_lower c) (string_lower s')
  end.

(** [HTTPBearer.__call__]: [None] is a missing header.  (Recent FastAPI
    releases answer these cases with 401; the repository pins no FastAPI
    version.) *)
Definition http_bearer (authorization : option (string * Credentials)) : M Jwt.t :=
  match authorization with
  | None => raise not_authenticated_exc
  | Some (scheme, credentials) =>
      match credentials with
      | NoCredentials => raise not_authenticated_exc
      | Encoded token =>
          if String.eqb scheme "" then raise not_authenticated_exc
          else if negb (String.eqb (string_lower scheme) "bearer")
          then raise invalid_auth_credentials_exc
          else ret token
      end
  end.

(** [Depends(get_current_user)] from the request header: [security] then
    [get_current_user]. *)
Definition get_current_user_from_header (settings : Settings) (now : Z)
    (authorization : option (string * Credentials)) : M User.t :=
  token <- http_bearer authorization ;;
  get_current_user settings now token.

(** The condition the uniqueness query of [create_user] selects on. *)
Definition same_username_or_email (username email : string) (u : User.t) : Prop :=
  User.username u = username \/ User.email u = email.

(** [last_login] and [updated_at] are the only fields in which [v'] may
    differ from [v], and they carry the two clocks. *)
Definition same_except_login_stamps (utcnow db_now : Z) (v v' : User.t) : Prop :=
  User.id v' = User.id v /\ User.username v' = User.username v
  /\ User.email v' = User.email v /\ User.hashed_password v' = User.hashed_password v
  /\ User.full_name v' = User.full_name v /\ User.role v' = User.role v
  /\ User.is_active v' = User.is_active v /\ User.is_verified v' = User.is_verified v
  /\ User.created_at v' = User.created_at v
  /\ User.last_login v' = Some utcnow /\ User.updated_at v' = Some db_now.

(** ** Seed script ([scripts/seed_admin.py]) *)

(** [admin_data] *)
Definition admin_username : string := "admin".
Definition admin_email : string := "admin@re-platform.local".
Definition admin_password : string := "admin123!".
Definition admin_full_name : string := "System Administrator".

(** What [create_admin_user] ends in: the early [return] after "already
    exists", the created row, or the [IntegrityError] the unique indexes on
    [username] / [email] raise at [commit()], re-raised after [rollback()].
    The failed INSERT has already drawn its [id] from [users_id_seq], and a
    sequence is not rolled back. *)
Inductive SeedOutcome : Type :=
| AlreadyExists
| Created (admin_user : User.t)
| IntegrityError.

(** [create_admin_user]; the prints are left out.  Unlike [create_user],
    it passes [is_verified=True], so that column default does not apply. *)
Definition create_admin_user (salt : Salt) (db_now : Z) (db : DB) : SeedOutcome * DB :=
  match get_user_by_username db admin_username with
  | Some _ => (AlreadyExists, db)
  | None =>
      let hashed_password := get_password_hash admin_password salt in
      match find_username_or_email db admin_username admin_email with
      | Some _ => (IntegrityError, mkDB (users db) (next_id db + 1))
      | None =>
          let admin_user := User.mk (next_id db) admin_username admin_email
                              hashed_password (Some admin_full_name) ADMIN true true
                              db_now None None in
          (Created admin_user, mkDB (users db ++ [admin_user]) (next_id db + 1))
      end
  end.

(** ** Store invariant *)

(** What the primary key, the [id] sequence and the unique indexes of the
    [users] table guarantee of its rows. *)
Definition db_wf (db : DB) : Prop :=
  NoDup (map User.id (users db))
  /\ Forall (fun u => User.id u < next_id db) (users db)
  /\ NoDup (map User.username (users db))
  /\ NoDup (map User.email (users db)).

(** ** Properties *)

Lemma find_none_iff {A} (f : A -> bool) (l : list A) :
  find f l = None <-> Forall (fun x => f x = false) l.
Proof.
  induction l as [|a l IH]; simpl.
  - split; auto.
  - destruct (f a) eqn:Ha; split; intro H.
    + discriminate.
    + inversion H; congruence.
    + constructor; auto; apply IH; exact H.
    + inversion H; apply IH; assumption.
Qed.

(** C1: every failure of [authenticate_user] -- unknown username, wrong
    password, inactive account -- yields the very same outcome [None], and
    [None] is returned exactly in those three cases. *)
Theorem authenticate_user_uniform_none (utcnow db_now : Z) (login_data : UserLogin.t)
    (db : DB) :
  fst (authenticate_user utcnow db_now login_data db) = inr None <->
  (get_user_by_username db (UserLogin.username login_data) = None
   \/ (exists u, get_user_by_username db (UserLogin.username login_data) = Some u
          /\ verify_password (UserLogin.password login_data) (User.hashed_password u) = false)
   \/ (exists u, get_user_by_username db (UserLogin.username login_data) = Some u
          /\ verify_password (UserLogin.password login_data) (User.hashed_password u) = true
          /\ User.is_active u = false)).
Proof.
  unfold authenticate_user, bind, gets, ret, modify; simpl.
  destruct (get_user_by_username db (UserLogin.username login_data)) as [u|] eqn:Hu.
  - destruct (verify_password (UserLogin.password login_data) (User.hashed_password u)) eqn:Hv;
      simpl.
    + destruct (User.is_active u) eqn:Ha; simpl.
      * split; [discriminate|].
        intros [H|[[u' [H1 H2]]|[u' [H1 [H2 H3]]]]]; [discriminate| |];
          injection H1 as <-; congruence.
      * split; intros _; [right; right; eauto|reflexivity].
    + split; intros _; [right; left; eauto|reflexivity].
  - split; intros _; [left; reflexivity|reflexivity].
Qed.

(** C2: the role gate lets [current_user] through iff its role is the
    required one or ADMIN, and raises the 403 otherwise; in particular
    ANALYST does not satisfy VIEWER and VIEWER does not satisfy ANALYST. *)
Theorem role_checker_iff (required_role : UserRole) (current_user : User.t) (db : DB) :
  ((role_checker required_role current_user db = (inr current_user, db)
    <-> (User.role current_user = required_role \/ User.role current_user = ADMIN))
   /\ (role_checker required_role current_user db = (inl forbidden_exc, db)
    <-> (User.role current_user <> required_role /\ User.role current_user <> ADMIN)))
  /\ (User.role current_user = ANALYST ->
      role_checker VIEWER current_user db = (inl forbidden_exc, db))
  /\ (User.role current_user = VIEWER ->
      role_checker ANALYST current_user db = (inl forbidden_exc, db)).
Proof.
  unfold role_checker, ret, raise.
  destruct (User.role current_user) eqn:Hr;
    destruct required_role; simpl;
    repeat split; intros; try congruence;
    repeat match goal with
           | H : _ \/ _ |- _ => destruct H
           | H : _ /\ _ |- _ => destruct H
           end; try congruence; auto.
Qed.

(** C3: [get_current_user] raises the 401 [credentials_exception] when the
    token fails to decode (bad signature, or at or past its expiry) or names
    no existing user, raises the "Inactive user" error for an inactive user,
    and otherwise returns the user; it never writes the store. *)
Theorem get_current_user_outcomes (settings : Settings) (now : Z) (token : Jwt.t) (db : DB) :
  ((String.eqb (sign (SECRET_KEY settings) (Jwt.claims token) (Jwt.exp token))
               (Jwt.signature token) = false \/ Jwt.exp token <= now) ->
   get_current_user settings now token db = (inl credentials_exception, db))
  /\ (forall d, decode (SECRET_KEY settings) now token = inr d ->
      get_user_by_id db (TokenData.user_id d) = None ->
      get_current_user settings now token db = (inl credentials_exception, db))
  /\ (forall d u, decode (SECRET_KEY settings) now token = inr d ->
      get_user_by_id db (TokenData.user_id d) = Some u -> User.is_active u = false ->
      get_current_user settings now token db = (inl inactive_user_exc, db))
  /\ (forall d u, decode (SECRET_KEY settings) now token = inr d ->
      get_user_by_id db (TokenData.user_id d) = Some u -> User.is_active u = true ->
      get_current_user settings now token db = (inr u, db)).
Proof.
  unfold get_current_user, verify_token, bind, gets, ret, raise.
  repeat split.
  - intros H. unfold decode.
    destruct (String.eqb _ _) eqn:Hs; [|reflexivity].
    destruct H as [H|H]; [discriminate|].
    destruct (now <? Jwt.exp token) eqn:Hlt; [lia|reflexivity].
  - intros d Hd Hu. rewrite Hd, Hu. reflexivity.
  - intros d u Hd Hu Ha. rewrite Hd, Hu, Ha. reflexivity.
  - intros d u Hd Hu Ha. rewrite Hd, Hu, Ha. reflexivity.
Qed.

Lemma find_username_or_email_none (db : DB) (username email : string) :
  find_username_or_email db username email = None <->
  ~ Exists (same_username_or_email username email) (users db).
Proof.
  unfold find_username_or_email. rewrite find_none_iff, <- Forall_Exists_neg.
  assert (Hu : forall u, (String.eqb (User.username u) username
                          || String.eqb (User.email u) email = false)
                         <-> ~ same_username_or_email username email u).
  { intros u. unfold same_username_or_email.
    rewrite orb_false_iff, !String.eqb_neq. tauto. }
  split; apply Forall_impl; intros u; apply Hu.
Qed.

(** C4 fails: a body whose (valid) email is longer than the 100
    characters of the [email String(100)] column, with no stored row sharing
    its username or email, does not create a user: the INSERT is rejected,
    [create_user] ends in the 500 of an unhandled database error, and the
    store is left as it was.  ([UserBase] bounds [username] and
    [full_name] by their columns but leaves [email] unbounded.) *)
Theorem create_user_email_over_column (salt : Salt) (db_now : Z) (body : RegisterBody.t)
    (user_data : UserCreate.t) (db : DB) :
  parse_UserCreate body = Some user_data ->
  find_username_or_email db (UserCreate.username user_data) (UserCreate.email user_data) = None ->
  (100 < char_length (UserCreate.email user_data))%nat ->
  create_user salt db_now user_data db = (inl internal_server_error, db).
Proof.
  intros _ Hf Hlen. unfold create_user, bind, gets, add_commit_refresh; simpl.
  rewrite Hf. unfold fits_columns.
  replace (char_length (UserCreate.email user_data) <=? 100)%nat with false
    by (symmetry; apply Nat.leb_gt; exact Hlen).
  rewrite andb_false_r. reflexivity.
Qed.

(** C5: [login_user] raises the 401 "Incorrect username or password" exactly
    when [authenticate_user] returns [None], raises nothing else, and on
    success returns a bearer token for the authenticated user whose claims
    are its username, id and role value, whose expiry lies
    [ACCESS_TOKEN_EXPIRE_MINUTES * 60] seconds after issue, and whose
    [expires_in] is that ttl in seconds. *)
Theorem login_user_spec (settings : Settings) (utcnow db_now : Z) (login_data : UserLogin.t)
    (db : DB) :
  (fst (login_user settings utcnow db_now login_data db) = inl invalid_credentials_exc
   <-> fst (authenticate_user utcnow db_now login_data db) = inr None)
  /\ (forall e, fst (login_user settings utcnow db_now login_data db) = inl e ->
      e = invalid_credentials_exc)
  /\ (forall tok, fst (login_user settings utcnow db_now login_data db) = inr tok ->
      exists u, fst (authenticate_user utcnow db_now login_data db) = inr (Some u)
        /\ Jwt.claims (Token.access_token tok)
           = TokenData.mk (User.username u) (User.id u) (UserRole_value (User.role u))
        /\ Jwt.exp (Token.access_token tok) = utcnow + ACCESS_TOKEN_EXPIRE_MINUTES settings * 60
        /\ decode (SECRET_KEY settings) utcnow (Token.access_token tok)
           = (if 0 <? ACCESS_TOKEN_EXPIRE_MINUTES settings
              then inr (TokenData.mk (User.username u) (User.id u) (UserRole_value (User.role u)))
              else inl Expired)
        /\ Token.token_type tok = "bearer"
        /\ Token.expires_in tok = ACCESS_TOKEN_EXPIRE_MINUTES settings * 60).
Proof.
  unfold login_user, bind, ret, raise.
  destruct (authenticate_user utcnow db_now login_data db) as [[e|[u|]] db'] eqn:Ha.
  - exfalso. revert Ha. unfold authenticate_user, bind, gets, ret, modify.
    destruct (get_user_by_username db _); [|discriminate].
    destruct (negb _); [discriminate|]. destruct (negb _); discriminate.
  - simpl. repeat split; try discriminate.
    intros tok Htok. injection Htok as <-. exists u. repeat split.
    unfold decode, create_access_token; simpl. rewrite String.eqb_refl.
    destruct (0 <? ACCESS_TOKEN_EXPIRE_MINUTES settings) eqn:H0;
      destruct (utcnow <? utcnow + ACCESS_TOKEN_EXPIRE_MINUTES settings * 60) eqn:H1;
      try reflexivity; rewrite ?Z.ltb_lt, ?Z.ltb_ge in *; lia.
  - simpl. repeat split; try discriminate; auto.
    intros e He. injection He as <-. reflexivity.
Qed.

(** C6 (amended): when [authenticate_user] returns [None] the store is left
    unchanged; on success the returned user is the row looked up with
    [last_login] set to the current time, and the store differs from the old
    one only in the rows with that id, whose [last_login] is now the current
    time and whose [updated_at] is the database time (the [onupdate] of the
    column); no other field of any row changes. *)
Theorem authenticate_user_frame (utcnow db_now : Z) (login_data : UserLogin.t) (db : DB) :
  (fst (authenticate_user utcnow db_now login_data db) = inr None ->
   snd (authenticate_user utcnow db_now login_data db) = db)
  /\ (forall u, fst (authenticate_user utcnow db_now login_data db) = inr (Some u) ->
      exists u0, get_user_by_username db (UserLogin.username login_data) = Some u0
        /\ In u0 (users db)
        /\ same_except_login_stamps utcnow db_now u0 u
        /\ next_id (snd (authenticate_user utcnow db_now login_data db)) = next_id db
        /\ Forall2 (fun v v' =>
                     (User.id v = User.id u0 /\ same_except_login_stamps utcnow db_now v v')
                     \/ (User.id v <> User.id u0 /\ v' = v))
             (users db) (users (snd (authenticate_user utcnow db_now login_data db)))).
Proof.
  unfold authenticate_user, bind, gets, ret, modify; simpl.
  destruct (get_user_by_username db (UserLogin.username login_data)) as [u0|] eqn:Hu;
    [|split; [auto|discriminate]].
  destruct (verify_password _ _); simpl; [|split; [auto|discriminate]].
  destruct (User.is_active u0) eqn:Ha; simpl; [|split; [auto|discriminate]].
  split; [discriminate|].
  intros u Hs. injection Hs as <-. exists u0.
  split; [reflexivity|]. split.
  { unfold get_user_by_username in Hu. apply find_some in Hu. tauto. }
  split; [repeat split|]. split; [reflexivity|].
  simpl. induction (users db) as [|v l IH]; simpl; constructor; [|exact IH].
  destruct (User.id v =? User.id u0) eqn:Hid.
  - left. apply Z.eqb_eq in Hid. split; [exact Hid|repeat split].
  - right. apply Z.eqb_neq in Hid. auto.
Qed.

(** C7 (spec-modelled codec): decoding a token issued at [iat] with a
    positive ttl, at any time before [iat + ttl], returns the claims it was
    issued with. *)
Theorem decode_create_access_token (key : string) (iat ttl now : Z) (data : TokenData.t) :
  0 < ttl -> now < iat + ttl ->
  decode key now (create_access_token key iat data ttl) = inr data.
Proof.
  intros _ Hnow. unfold decode, create_access_token; simpl.
  rewrite String.eqb_refl. apply Z.ltb_lt in Hnow. rewrite Hnow. reflexivity.
Qed.

Lemma find_map_hash (f : User.t -> string) (p : User.t -> bool) (l : list User.t) :
  (forall u, p (User.set_hashed_password (f u) u) = p u) ->
  find p (map (fun u => User.set_hashed_password (f u) u) l)
  = option_map (fun u => User.set_hashed_password (f u) u) (find p l).
Proof.
  intros Hp. induction l as [|a l IH]; simpl; [reflexivity|].
  rewrite Hp. destruct (p a); [reflexivity|exact IH].
Qed.

Lemma parse_UserCreate_set_password (body : RegisterBody.t) (pw pw' : string) :
  len_between 8 100 pw = true -> len_between 8 100 pw' = true ->
  parse_UserCreate (RegisterBody.set_password pw body)
  = option_map (fun uc => UserCreate.mk (UserCreate.username uc) (UserCreate.email uc)
                            (UserCreate.full_name uc) (UserCreate.role uc)
                            (UserCreate.is_active uc) pw)
      (parse_UserCreate (RegisterBody.set_password pw' body)).
Proof.
  intros Hpw Hpw'. unfold parse_UserCreate; simpl.
  destruct (validate_email (RegisterBody.email body)); [|reflexivity].
  rewrite Hpw, Hpw', !andb_true_r.
  destruct (len_between 3 50 _ && _); reflexivity.
Qed.

(** C8: the view returned to callers ([UserResponse]) carries neither the
    hash nor the password: it is unchanged when a row's hash is replaced;
    for [POST /register], which password (and salt) the body carries does
    not change the outcome returned; and [GET /me] returns the same view
    whatever hashes the store holds. *)
Theorem user_response_hides_password :
  (forall u h, UserResponse.of_user (User.set_hashed_password h u) = UserResponse.of_user u)
  /\ (forall settings now token db_now db body pw1 pw2 (s1 s2 : Salt),
      len_between 8 100 pw1 = true -> len_between 8 100 pw2 = true ->
      fst (register settings now token s1 db_now (RegisterBody.set_password pw1 body) db)
      = fst (register settings now token s2 db_now (RegisterBody.set_password pw2 body) db))
  /\ (forall settings now token db (f : User.t -> string),
      fst (get_current_user_info settings now token db)
      = fst (get_current_user_info settings now token
               (mkDB (map (fun u => User.set_hashed_password (f u) u) (users db)) (next_id db)))).
Proof.
  split; [reflexivity|]. split.
  - intros settings now token db_now db body pw1 pw2 s1 s2 H1 H2.
    unfold register, bind.
    destruct (require_role ADMIN settings now token db) as [[e|x] db'] eqn:Hr; [reflexivity|].
    rewrite (parse_UserCreate_set_password body pw2 pw1 H2 H1).
    destruct (parse_UserCreate (RegisterBody.set_password pw1 body)) as [uc|]; simpl;
      [|reflexivity].
    unfold create_user, bind, gets, raise, ret, add_commit_refresh; simpl.
    destruct (find_username_or_email db' _ _); [reflexivity|].
    destruct (fits_columns _ _ _); reflexivity.
  - intros settings now token db f.
    unfold get_current_user_info, get_current_user, get_current_active_user,
      verify_token, bind, gets, ret, raise.
    destruct (decode (SECRET_KEY settings) now token) as [e|d]; [reflexivity|].
    unfold get_user_by_id; simpl.
    rewrite find_map_hash by reflexivity.
    destruct (find _ (users db)) as [u|]; simpl; [|reflexivity].
    destruct (User.is_active u) eqn:Ha; simpl; rewrite ?Ha; [|reflexivity].
    unfold validate_UserResponse; simpl.
    destruct (validate_email (User.email u)); [|reflexivity].
    destruct (_ && _); reflexivity.
Qed.

(** C9 (amended): the failure kinds are fixed exceptions, pairwise
    distinct as (status, detail, headers) and all 4xx: Conflict 400,
    InactiveUser 400, InvalidCredentials 401, Forbidden 403, and
    Unauthenticated in three forms -- the 401 [credentials_exception] of
    [get_current_user] and the two 403 answers of [HTTPBearer] (no
    credentials, a non-bearer scheme), which share their status with
    Forbidden.  Each step raises only its own kinds -- [create_user] Conflict
    or a 5xx persistence error -- at once, with the store as it found it. *)
Theorem error_kinds_distinct :
  NoDup [conflict_exc; invalid_credentials_exc; credentials_exception;
         not_authenticated_exc; invalid_auth_credentials_exc;
         inactive_user_exc; forbidden_exc]
  /\ Forall (fun e => 400 <= status_code e <= 499)
       [conflict_exc; invalid_credentials_exc; credentials_exception;
        not_authenticated_exc; invalid_auth_credentials_exc;
        inactive_user_exc; forbidden_exc]
  /\ (forall authorization db e,
      fst (http_bearer authorization db) = inl e ->
      (e = not_authenticated_exc \/ e = invalid_auth_credentials_exc)
      /\ snd (http_bearer authorization db) = db)
  /\ (forall (salt : Salt) db_now user_data db e,
      fst (create_user salt db_now user_data db) = inl e ->
      (e = conflict_exc \/ 500 <= status_code e <= 599)
      /\ snd (create_user salt db_now user_data db) = db)
  /\ (forall settings utcnow db_now login_data db e,
      fst (login_user settings utcnow db_now login_data db) = inl e ->
      e = invalid_credentials_exc /\ snd (login_user settings utcnow db_now login_data db) = db)
  /\ (forall settings now token db e,
      fst (get_current_user settings now token db) = inl e ->
      (e = credentials_exception \/ e = inactive_user_exc)
      /\ snd (get_current_user settings now token db) = db)
  /\ (forall required_role current_user db e,
      fst (role_checker required_role current_user db) = inl e ->
      e = forbidden_exc /\ snd (role_checker required_role current_user db) = db).
Proof.
  split.
  { unfold conflict_exc, invalid_credentials_exc, credentials_exception,
      not_authenticated_exc, invalid_auth_credentials_exc,
      inactive_user_exc, forbidden_exc.
    repeat constructor; simpl; intuition discriminate. }
  split.
  { repeat constructor; simpl; unfold HTTP_400_BAD_REQUEST, HTTP_401_UNAUTHORIZED,
      HTTP_403_FORBIDDEN; lia. }
  split.
  { intros authorization db e. unfold http_bearer, raise, ret.
    destruct authorization as [[scheme [|token]]|]; simpl;
      try (intros He; injection He as <-; auto).
    destruct (String.eqb scheme ""); simpl; [intros He; injection He as <-; auto|].
    destruct (negb _); simpl; [intros He; injection He as <-; auto|discriminate]. }
  split.
  { intros salt db_now user_data db e.
    unfold create_user, bind, gets, raise, add_commit_refresh; simpl.
    destruct (find_username_or_email _ _ _); simpl; [intros He; injection He as <-; auto|].
    destruct (fits_columns _ _ _); simpl; [discriminate|].
    intros He; injection He as <-. split; [right; simpl; lia|reflexivity]. }
  split.
  { intros settings utcnow db_now login_data db e.
    unfold login_user, authenticate_user, bind, gets, raise, ret, modify; simpl.
    destruct (get_user_by_username db _) as [u|]; simpl;
      [|intros He; injection He as <-; auto].
    destruct (verify_password _ _); simpl; [|intros He; injection He as <-; auto].
    destruct (User.is_active u); simpl; [discriminate|intros He; injection He as <-; auto]. }
  split.
  { intros settings now token db e.
    unfold get_current_user, verify_token, bind, gets, raise, ret.
    destruct (decode _ _ _); simpl; [intros He; injection He as <-; auto|].
    destruct (get_user_by_id db _) as [u|]; simpl; [|intros He; injection He as <-; auto].
    destruct (User.is_active u); simpl; [discriminate|intros He; injection He as <-; auto]. }
  { intros required_role current_user db e. unfold role_checker, raise, ret.
    destruct (_ && _); simpl; [intros He; injection He as <-; auto|discriminate]. }
Qed.

(** C10: whatever the registration body carries (an extra ["is_verified"]
    key included), the user [create_user] creates has [is_verified = false]
    and is stored as such. *)
Theorem create_user_not_verified (salt : Salt) (db_now : Z) (body : RegisterBody.t)
    (user_data : UserCreate.t) (db : DB) (u : User.t) :
  parse_UserCreate body = Some user_data ->
  fst (create_user salt db_now user_data db) = inr u ->
  User.is_verified u = false /\ In u (users (snd (create_user salt db_now user_data db))).
Proof.
  intros _. unfold create_user, bind, gets, raise, add_commit_refresh; simpl.
  destruct (find_username_or_email _ _ _); simpl; [discriminate|].
  destruct (fits_columns _ _ _); simpl; [|discriminate].
  intros Hu; injection Hu as <-. split; [reflexivity|].
  apply in_or_app; right; left; reflexivity.
Qed.

(** ** Further properties of the code *)

Lemma NoDup_snoc {A} (l : list A) (x : A) : NoDup l -> ~ In x l -> NoDup (l ++ [x]).
Proof.
  intros Hl Hx. apply NoDup_app; [exact Hl|repeat constructor; simpl; tauto|].
  intros a Ha [<-|[]]. contradiction.
Qed.

Lemma find_snoc {A} (p : A -> bool) (l : list A) (x : A) :
  Forall (fun y => p y = false) l -> p x = true -> find p (l ++ [x]) = Some x.
Proof.
  intros Hl Hx. induction Hl as [|y l Hy Hl IH]; simpl.
  - rewrite Hx. reflexivity.
  - rewrite Hy. exact IH.
Qed.

Lemma find_username_or_email_none_forall (db : DB) (username email : string) :
  find_username_or_email db username email = None ->
  Forall (fun v => User.username v <> username /\ User.email v <> email) (users db).
Proof.
  unfold find_username_or_email. rewrite find_none_iff. apply Forall_impl.
  intros v Hv. apply orb_false_iff in Hv as [H1 H2].
  apply String.eqb_neq in H1. apply String.eqb_neq in H2. auto.
Qed.

Lemma db_wf_snoc (db : DB) (u : User.t) :
  db_wf db -> User.id u = next_id db ->
  Forall (fun v => User.username v <> User.username u /\ User.email v <> User.email u)
    (users db) ->
  db_wf (mkDB (users db ++ [u]) (next_id db + 1)).
Proof.
  intros [Hi [Hlt [Hu He]]] Hid Hf. unfold db_wf; simpl. rewrite !map_app; simpl.
  rewrite Forall_forall in Hlt, Hf.
  split; [|split; [|split]].
  - apply NoDup_snoc; [exact Hi|]. intros Hin.
    apply in_map_iff in Hin as [v [Hv Hin]]. specialize (Hlt v Hin). lia.
  - apply Forall_app. split.
    + apply Forall_forall. intros v Hin. specialize (Hlt v Hin). lia.
    + repeat constructor. lia.
  - apply NoDup_snoc; [exact Hu|]. intros Hin.
    apply in_map_iff in Hin as [v [Hv Hin]]. destruct (Hf v Hin). contradiction.
  - apply NoDup_snoc; [exact He|]. intros Hin.
    apply in_map_iff in Hin as [v [Hv Hin]]. destruct (Hf v Hin). contradiction.
Qed.

(** [create_user] keeps the table invariant: distinct ids below the
    sequence, distinct usernames, distinct emails. *)
Theorem create_user_preserves_wf (salt : Salt) (db_now : Z) (user_data : UserCreate.t)
    (db : DB) :
  db_wf db -> db_wf (snd (create_user salt db_now user_data db)).
Proof.
  intros Hwf. unfold create_user, bind, gets, raise, add_commit_refresh; simpl.
  destruct (find_username_or_email db _ _) eqn:Hf; simpl; [exact Hwf|].
  destruct (fits_columns _ _ _); simpl; [|exact Hwf].
  apply db_wf_snoc; [exact Hwf|reflexivity|].
  apply find_username_or_email_none_forall. exact Hf.
Qed.

(** After a successful [create_user], looking the new user up by its id or
    by its username in the resulting store returns exactly that user. *)
Theorem create_user_lookup (salt : Salt) (db_now : Z) (user_data : UserCreate.t)
    (db db' : DB) (u : User.t) :
  db_wf db ->
  create_user salt db_now user_data db = (inr u, db') ->
  get_user_by_id db' (User.id u) = Some u
  /\ get_user_by_username db' (User.username u) = Some u.
Proof.
  intros [_ [Hlt _]]. unfold create_user, bind, gets, raise, add_commit_refresh; simpl.
  destruct (find_username_or_email db _ _) eqn:Hf; [discriminate|].
  destruct (fits_columns _ _ _); [|discriminate].
  intros H. injection H as <- <-.
  unfold get_user_by_id, get_user_by_username; simpl. split.
  - apply find_snoc; [|apply Z.eqb_refl].
    eapply Forall_impl; [|exact Hlt]. intros v Hv; simpl in Hv. apply Z.eqb_neq. lia.
  - apply find_snoc; [|apply String.eqb_refl].
    eapply Forall_impl; [|apply find_username_or_email_none_forall; exact Hf].
    intros v [Hv _]. apply String.eqb_neq. exact Hv.
Qed.

Lemma authenticate_user_some (utcnow db_now : Z) (login_data : UserLogin.t) (db : DB)
    (u : User.t) :
  fst (authenticate_user utcnow db_now login_data db) = inr (Some u) ->
  exists u0, get_user_by_username db (UserLogin.username login_data) = Some u0
    /\ verify_password (UserLogin.password login_data) (User.hashed_password u0) = true
    /\ User.is_active u0 = true
    /\ u = User.touch_last_login utcnow db_now u0
    /\ snd (authenticate_user utcnow db_now login_data db)
       = update_row (User.id u0) (User.touch_last_login utcnow db_now) db.
Proof.
  unfold authenticate_user, bind, gets, ret, modify; simpl.
  destruct (get_user_by_username db _) as [u0|]; [|discriminate].
  destruct (verify_password _ _) eqn:Hv; simpl; [|discriminate].
  destruct (User.is_active u0) eqn:Ha; simpl; [|discriminate].
  intros H. injection H as <-. exists u0. auto.
Qed.

Lemma authenticate_user_none_or_some (utcnow db_now : Z) (login_data : UserLogin.t) (db : DB) :
  (fst (authenticate_user utcnow db_now login_data db) = inr None
   /\ snd (authenticate_user utcnow db_now login_data db) = db)
  \/ exists u, fst (authenticate_user utcnow db_now login_data db) = inr (Some u).
Proof.
  unfold authenticate_user, bind, gets, ret, modify; simpl.
  destruct (get_user_by_username db _) as [u0|]; [|left; auto].
  destruct (verify_password _ _); simpl; [|left; auto].
  destruct (User.is_active u0); simpl; [right; eauto|left; auto].
Qed.

Lemma map_update_row_touch {B} (g : User.t -> B) (uid utcnow db_now : Z) (l : list User.t) :
  (forall v, g (User.touch_last_login utcnow db_now v) = g v) ->
  map g (map (fun v => if User.id v =? uid then User.touch_last_login utcnow db_now v else v) l)
  = map g l.
Proof.
  intros Hg. rewrite map_map. apply map_ext. intros v.
  destruct (User.id v =? uid); [apply Hg|reflexivity].
Qed.

(** [authenticate_user] keeps the table invariant. *)
Theorem authenticate_user_preserves_wf (utcnow db_now : Z) (login_data : UserLogin.t)
    (db : DB) :
  db_wf db -> db_wf (snd (authenticate_user utcnow db_now login_data db)).
Proof.
  intros Hwf.
  destruct (authenticate_user_none_or_some utcnow db_now login_data db)
    as [[_ ->]|[u Hu]]; [exact Hwf|].
  destruct (authenticate_user_some utcnow db_now login_data db u Hu)
    as [u0 [_ [_ [_ [_ ->]]]]].
  destruct Hwf as [Hi [Hlt [Hu' He]]]. unfold db_wf, update_row; simpl.
  rewrite !map_update_row_touch by reflexivity.
  split; [exact Hi|]. split; [|auto].
  apply Forall_map. eapply Forall_impl; [|exact Hlt].
  intros v Hv. destruct (User.id v =? User.id u0); exact Hv.
Qed.

(** A user just created by [create_user] with an active account can log in
    with the username and password it was registered with, provided the
    hasher verifies its own output; [authenticate_user] then returns the new
    row with its login stamps set. *)
Theorem create_user_then_authenticate (salt : Salt) (db_now utcnow db_now' : Z)
    (user_data : UserCreate.t) (db db' : DB) (u : User.t) :
  create_user salt db_now user_data db = (inr u, db') ->
  UserCreate.is_active user_data = true ->
  verify_password (UserCreate.password user_data)
    (get_password_hash (UserCreate.password user_data) salt) = true ->
  fst (authenticate_user utcnow db_now'
         (UserLogin.mk (UserCreate.username user_data) (UserCreate.password user_data)) db')
  = inr (Some (User.touch_last_login utcnow db_now' u)).
Proof.
  intros Hc Ha Hv. revert Hc.
  unfold create_user, bind, gets, raise, add_commit_refresh; simpl.
  destruct (find_username_or_email db _ _) eqn:Hf; [discriminate|].
  destruct (fits_columns _ _ _); [|discriminate].
  intros H. injection H as <- <-.
  unfold authenticate_user, bind, gets, ret, modify, get_user_by_username; simpl.
  rewrite find_snoc; [|eapply Forall_impl; [|apply find_username_or_email_none_forall; exact Hf];
                       intros v [Hn _]; apply String.eqb_neq; exact Hn
                     |apply String.eqb_refl].
  simpl. rewrite Hv, Ha. reflexivity.
Qed.

(** [create_admin_user] is idempotent on the rows: a second run creates
    nothing and leaves every row as the first run left it, whatever the
    first one did.  (A run that ends in [IntegrityError] still draws a value
    of the id sequence.) *)
Theorem create_admin_user_rows_idempotent (salt1 salt2 : Salt) (t1 t2 : Z) (db : DB) :
  (forall u, fst (create_admin_user salt2 t2 (snd (create_admin_user salt1 t1 db)))
             <> Created u)
  /\ users (snd (create_admin_user salt2 t2 (snd (create_admin_user salt1 t1 db))))
     = users (snd (create_admin_user salt1 t1 db)).
Proof.
  unfold create_admin_user.
  destruct (get_user_by_username db admin_username) eqn:Hu; simpl;
    [rewrite Hu; split; [discriminate|reflexivity]|].
  destruct (find_username_or_email db admin_username admin_email) eqn:Hf; simpl.
  - unfold get_user_by_username, find_username_or_email in *; simpl.
    rewrite Hu, Hf. split; [discriminate|reflexivity].
  - unfold get_user_by_username in *; simpl.
    rewrite find_snoc; [simpl; split; [discriminate|reflexivity]| |apply String.eqb_refl].
    apply find_none_iff. exact Hu.
Qed.

(** [create_admin_user] keeps the table invariant; when it creates the
    admin, the row is an active, verified ADMIN, and (the hasher verifying
    its own output) logging in as ["admin"] / ["admin123!"] then succeeds. *)
Theorem create_admin_user_then_login (salt : Salt) (db_now utcnow db_now' : Z) (db db' : DB)
    (admin_user : User.t) :
  db_wf db ->
  create_admin_user salt db_now db = (Created admin_user, db') ->
  verify_password admin_password (get_password_hash admin_password salt) = true ->
  db_wf db'
  /\ User.role admin_user = ADMIN /\ User.is_active admin_user = true
  /\ User.is_verified admin_user = true
  /\ fst (authenticate_user utcnow db_now' (UserLogin.mk admin_username admin_password) db')
     = inr (Some (User.touch_last_login utcnow db_now' admin_user)).
Proof.
  intros Hwf. unfold create_admin_user.
  destruct (get_user_by_username db admin_username) eqn:Hu; [discriminate|].
  destruct (find_username_or_email db admin_username admin_email) eqn:Hf; [discriminate|].
  intros H Hv. injection H as <- <-.
  split; [apply db_wf_snoc; [exact Hwf|reflexivity|apply find_username_or_email_none_forall;
                                                     exact Hf]|].
  split; [reflexivity|]. split; [reflexivity|]. split; [reflexivity|].
  unfold authenticate_user, bind, gets, ret, modify, get_user_by_username; simpl.
  rewrite find_snoc; [|apply find_none_iff; exact Hu|apply String.eqb_refl].
  simpl. rewrite Hv. reflexivity.
Qed.

Lemma find_id_NoDup (l : list User.t) (u : User.t) :
  NoDup (map User.id l) -> In u l -> find (fun v => User.id v =? User.id u) l = Some u.
Proof.
  induction l as [|a l IH]; simpl; [intros _ []|].
  intros Hnd Hin. inversion Hnd as [|x y Hnot Hnd' Heq]; subst.
  destruct (User.id a =? User.id u) eqn:Ha.
  - apply Z.eqb_eq in Ha. destruct Hin as [->|Hin]; [reflexivity|].
    exfalso. apply Hnot. rewrite Ha. apply in_map. exact Hin.
  - destruct Hin as [->|Hin]; [rewrite Z.eqb_refl in Ha; discriminate|].
    apply IH; assumption.
Qed.

Lemma find_map_touch (uid utcnow db_now : Z) (p : User.t -> bool) (l : list User.t) :
  (forall v, p (User.touch_last_login utcnow db_now v) = p v) ->
  find p (map (fun v => if User.id v =? uid then User.touch_last_login utcnow db_now v else v) l)
  = option_map (fun v => if User.id v =? uid then User.touch_last_login utcnow db_now v else v)
      (find p l).
Proof.
  intros Hp. induction l as [|a l IH]; simpl; [reflexivity|].
  destruct (User.id a =? uid) eqn:E; rewrite ?Hp; destruct (p a); simpl; rewrite ?E;
    try reflexivity; exact IH.
Qed.

(** Login then token resolution: on a well-formed store, the token returned
    by a successful [login_user], presented to [get_current_user] before its
    expiry, resolves to the logged-in user as it now is in the store (its
    [last_login] set), and the resolution reads the store only. *)
Theorem login_then_get_current_user (settings : Settings) (utcnow db_now now : Z)
    (login_data : UserLogin.t) (db db' : DB) (tok : Token.t) :
  db_wf db ->
  login_user settings utcnow db_now login_data db = (inr tok, db') ->
  now < utcnow + ACCESS_TOKEN_EXPIRE_MINUTES settings * 60 ->
  exists u, get_current_user settings now (Token.access_token tok) db' = (inr u, db')
    /\ User.username u = UserLogin.username login_data
    /\ User.last_login u = Some utcnow.
Proof.
  intros [Hi _] Hl Hnow.
  destruct (authenticate_user_none_or_some utcnow db_now login_data db) as [[Hn _]|[u Hu]];
    revert Hl; unfold login_user, bind, raise, ret.
  - destruct (authenticate_user utcnow db_now login_data db) as [r d].
    simpl in Hn. subst r. discriminate.
  - destruct (authenticate_user_some utcnow db_now login_data db u Hu)
      as [u0 [Hg [_ [Ha [-> Hs]]]]].
    destruct (authenticate_user utcnow db_now login_data db) as [r d] eqn:Hau.
    simpl in Hu, Hs. subst r d. intros H. injection H as <- <-.
    exists (User.touch_last_login utcnow db_now u0).
    unfold get_user_by_username in Hg. apply find_some in Hg as [Hin Hname].
    apply String.eqb_eq in Hname.
    split; [|split; [exact Hname|reflexivity]].
    unfold get_current_user, verify_token, decode, create_access_token, bind, gets, ret,
      raise; simpl.
    rewrite String.eqb_refl. apply Z.ltb_lt in Hnow. rewrite Hnow.
    unfold get_user_by_id, update_row; simpl.
    rewrite find_map_touch by reflexivity.
    rewrite find_id_NoDup by assumption. simpl. rewrite Z.eqb_refl. simpl.
    rewrite Ha. reflexivity.
Qed.

Lemma get_current_user_readonly (settings : Settings) (now : Z) (token : Jwt.t) (db : DB)
    (r : HTTPException + User.t) (db' : DB) :
  get_current_user settings now token db = (r, db') -> db' = db.
Proof.
  unfold get_current_user, verify_token, bind, gets, ret, raise.
  destruct (decode _ _ _); [intros H; injection H as _ <-; reflexivity|].
  destruct (get_user_by_id db _) as [w|]; [|intros H; injection H as _ <-; reflexivity].
  destruct (negb (User.is_active w)); intros H; injection H as _ <-; reflexivity.
Qed.

Lemma get_current_active_user_redundant (settings : Settings) (now : Z) (token : Jwt.t)
    (db db' : DB) (u : User.t) :
  get_current_user settings now token db = (inr u, db') ->
  db' = db /\ User.is_active u = true /\ get_current_active_user u db' = (inr u, db').
Proof.
  unfold get_current_user, get_current_active_user, verify_token, bind, gets, ret, raise.
  destruct (decode _ _ _); [discriminate|].
  destruct (get_user_by_id db _) as [v|]; [|discriminate].
  destruct (User.is_active v) eqn:Ha; simpl; [|discriminate].
  intros H. injection H as <- <-. rewrite Ha. auto.
Qed.

(** [get_current_user] never writes the store, whatever its outcome, and
    never returns an inactive user, so the [get_current_active_user] check
    that every protected route adds after it never fires. *)
Theorem get_current_user_readonly_active (settings : Settings) (now : Z) (token : Jwt.t)
    (db : DB) :
  snd (get_current_user settings now token db) = db
  /\ (forall u, fst (get_current_user settings now token db) = inr u ->
      User.is_active u = true /\ get_current_active_user u db = (inr u, db)).
Proof.
  destruct (get_current_user settings now token db) as [r db'] eqn:Hg.
  pose proof (get_current_user_readonly settings now token db r db' Hg) as ->.
  split; [reflexivity|]. simpl. intros u ->.
  destruct (get_current_active_user_redundant settings now token db db u Hg) as [_ H].
  exact H.
Qed.

(** The [require_role(r)] dependency chain grants exactly the users the
    token resolves to whose role is [r] or ADMIN, and never writes the
    store. *)
Theorem require_role_grants (required_role : UserRole) (settings : Settings) (now : Z)
    (token : Jwt.t) (db : DB) (u : User.t) :
  fst (require_role required_role settings now token db) = inr u <->
  (get_current_user settings now token db = (inr u, db)
   /\ (User.role u = required_role \/ User.role u = ADMIN)).
Proof.
  unfold require_role, bind.
  destruct (get_current_user settings now token db) as [[e|v] db'] eqn:Hg.
  - simpl. split; [discriminate|]. intros [H _]. discriminate.
  - destruct (get_current_active_user_redundant settings now token db db' v Hg)
      as [-> [_ ->]].
    unfold role_checker, raise, ret.
    destruct (User.role v) eqn:Hr; destruct required_role; simpl;
      split; intros H;
      repeat match goal with
             | H : _ /\ _ |- _ => destruct H
             | H : _ \/ _ |- _ => destruct H
             | H : inr _ = inr _ |- _ => injection H as H
             | H : (inr _, _) = (inr _, _) |- _ => injection H as H
             end;
      subst; try discriminate; try congruence; auto.
Qed.

(** [POST /register] touches the store only when it succeeds: every error
    it returns (unresolved or non-admin token, invalid body, duplicate
    username or email) leaves the store as it was. *)
Theorem register_error_keeps_store (settings : Settings) (now : Z) (token : Jwt.t)
    (salt : Salt) (db_now : Z) (body : RegisterBody.t) (db : DB) (e : HTTPException) :
  fst (register settings now token salt db_now body db) = inl e ->
  snd (register settings now token salt db_now body db) = db.
Proof.
  unfold register, require_role, bind.
  destruct (get_current_user settings now token db) as [[e'|v] db'] eqn:Hg.
  - simpl. intros _. exact (get_current_user_readonly settings now token db _ db' Hg).
  - destruct (get_current_active_user_redundant settings now token db db' v Hg)
      as [-> [_ ->]].
    unfold role_checker, raise, ret.
    destruct (_ && _); simpl; [reflexivity|].
    destruct (parse_UserCreate body) as [uc|]; simpl; [|reflexivity].
    unfold create_user, bind, gets, raise, add_commit_refresh; simpl.
    destruct (find_username_or_email db _ _); simpl; [reflexivity|].
    destruct (fits_columns _ _ _); simpl; [discriminate|reflexivity].
Qed.

(** [POST /register] is admin-only: when the token resolves to a user whose
    role is not ADMIN, it fails with the 403 whatever the body, and writes
    nothing. *)
Theorem register_non_admin_forbidden (settings : Settings) (now : Z) (token : Jwt.t)
    (salt : Salt) (db_now : Z) (body : RegisterBody.t) (db : DB) (u : User.t) :
  get_current_user settings now token db = (inr u, db) ->
  User.role u <> ADMIN ->
  register settings now token salt db_now body db = (inl forbidden_exc, db).
Proof.
  intros Hg Hr. unfold register, require_role, bind. rewrite Hg.
  destruct (get_current_active_user_redundant settings now token db db u Hg)
    as [_ [_ ->]].
  unfold role_checker, raise.
  destruct (User.role u); [congruence| |]; reflexivity.
Qed.

(** A successful [POST /register] was authorised by an active ADMIN, appends
    exactly one row to the store, and returns that row's [UserResponse]
    view. *)
Theorem register_success (settings : Settings) (now : Z) (token : Jwt.t) (salt : Salt)
    (db_now : Z) (body : RegisterBody.t) (db : DB) (resp : UserResponse.t) :
  fst (register settings now token salt db_now body db) = inr resp ->
  exists admin u,
    get_current_user settings now token db = (inr admin, db)
    /\ User.role admin = ADMIN
    /\ snd (register settings now token salt db_now body db)
       = mkDB (users db ++ [u]) (next_id db + 1)
    /\ resp = UserResponse.of_user u.
Proof.
  unfold register, require_role, bind.
  destruct (get_current_user settings now token db) as [[e|v] db'] eqn:Hg;
    [simpl; discriminate|].
  destruct (get_current_active_user_redundant settings now token db db' v Hg)
    as [-> [_ ->]].
  unfold role_checker, raise, ret.
  destruct (negb (UserRole_eqb (User.role v) ADMIN) && negb (UserRole_eqb (User.role v) ADMIN))
    eqn:Hr; simpl; [discriminate|].
  (* the admin gate passed *)
  assert (Hadm : User.role v = ADMIN) by (destruct (User.role v); simpl in Hr; congruence).
  destruct (parse_UserCreate body) as [uc|]; simpl; [|discriminate].
  unfold create_user, bind, gets, raise, add_commit_refresh; simpl.
  destruct (find_username_or_email db _ _); simpl; [discriminate|].
  destruct (fits_columns _ _ _); simpl; [|discriminate].
  intros H. injection H as <-. do 2 eexists. split; [reflexivity|]. split; [exact Hadm|].
  split; reflexivity.
Qed.

End Backend.

(** ** Witnesses and counterexamples *)

Ltac solve_db_wf :=
  unfold db_wf; simpl; repeat split; repeat constructor; simpl;
  intuition (try lia; try discriminate).

Lemma create_user_email_over_column_witness :
  parse_UserCreate Demo.validate_email Demo.long_body = Some Demo.long_user_data
  /\ find_username_or_email Demo.empty_db (UserCreate.username Demo.long_user_data)
       (UserCreate.email Demo.long_user_data) = None
  /\ (100 < char_length (UserCreate.email Demo.long_user_data))%nat
  /\ create_user unit Demo.hash tt 5 Demo.long_user_data Demo.empty_db
     = (inl internal_server_error, Demo.empty_db).
Proof.
  assert (Hp : parse_UserCreate Demo.validate_email Demo.long_body = Some Demo.long_user_data)
    by reflexivity.
  assert (Hf : find_username_or_email Demo.empty_db (UserCreate.username Demo.long_user_data)
                 (UserCreate.email Demo.long_user_data) = None) by reflexivity.
  assert (Hl : (100 < char_length (UserCreate.email Demo.long_user_data))%nat)
    by (vm_compute; lia).
  split; [exact Hp|]. split; [exact Hf|]. split; [exact Hl|].
  exact (create_user_email_over_column unit Demo.hash Demo.validate_email tt 5 Demo.long_body
           Demo.long_user_data Demo.empty_db Hp Hf Hl).
Defined.

(** C9 as stated fails: Unauthenticated is not one error kind.  A request
    without an [Authorization] header gets [HTTPBearer]'s 403 "Not
    authenticated" -- the status of Forbidden -- while a forged token gets
    the 401 "Could not validate credentials". *)
Lemma unauthenticated_two_forms :
  fst (get_current_user_from_header Demo.sign Demo.settings0 100 None Demo.db1)
    = inl not_authenticated_exc
  /\ fst (get_current_user_from_header Demo.sign Demo.settings0 100
           (Some ("Bearer"%string, Encoded Demo.forged_token)) Demo.db1)
     = inl credentials_exception
  /\ status_code not_authenticated_exc <> status_code credentials_exception
  /\ status_code not_authenticated_exc = status_code forbidden_exc
  /\ not_authenticated_exc <> forbidden_exc.
Proof.
  vm_compute. repeat split; discriminate.
Qed.

Lemma decode_create_access_token_witness :
  0 < 1800 /\ 100 < 0 + 1800
  /\ decode Demo.sign "secret" 100 (create_access_token Demo.sign "secret" 0 Demo.claims0 1800)
     = inr Demo.claims0.
Proof.
  split; [lia|]. split; [lia|].
  apply (decode_create_access_token Demo.sign "secret" 0 1800 100 Demo.claims0); lia.
Defined.

Lemma create_user_not_verified_witness :
  parse_UserCreate Demo.validate_email Demo.body = Some Demo.user_data
  /\ fst (create_user unit Demo.hash tt 5 Demo.user_data Demo.db0) = inr Demo.created
  /\ User.is_verified Demo.created = false
  /\ In Demo.created (users (snd (create_user unit Demo.hash tt 5 Demo.user_data Demo.db0))).
Proof.
  assert (Hp : parse_UserCreate Demo.validate_email Demo.body = Some Demo.user_data)
    by reflexivity.
  assert (Hc : fst (create_user unit Demo.hash tt 5 Demo.user_data Demo.db0) = inr Demo.created)
    by reflexivity.
  split; [exact Hp|]. split; [exact Hc|].
  exact (create_user_not_verified unit Demo.hash Demo.validate_email tt 5 Demo.body Demo.user_data
           Demo.db0 Demo.created Hp Hc).
Defined.

(** C6 as stated fails: a successful login of [admin] also rewrites the
    row's [updated_at] (from NULL to the database time), not only
    [last_login]. *)
Lemma authenticate_user_changes_updated_at :
  fst (authenticate_user Demo.verify 100 200 Demo.login0 Demo.db0)
    = inr (Some (User.touch_last_login 100 200 Demo.admin))
  /\ users (snd (authenticate_user Demo.verify 100 200 Demo.login0 Demo.db0))
     = [User.touch_last_login 100 200 Demo.admin]
  /\ User.updated_at Demo.admin = None
  /\ User.updated_at (User.touch_last_login 100 200 Demo.admin) = Some 200
  /\ User.updated_at (nth 0 (users (snd (authenticate_user Demo.verify 100 200 Demo.login0 Demo.db0))) Demo.admin)
     <> User.updated_at (nth 0 (users Demo.db0) Demo.admin).
Proof.
  vm_compute. repeat split; discriminate.
Qed.

Lemma create_user_preserves_wf_witness :
  db_wf Demo.db0 /\ db_wf (snd (create_user unit Demo.hash tt 5 Demo.user_data Demo.db0)).
Proof.
  assert (H : db_wf Demo.db0) by solve_db_wf.
  split; [exact H|exact (create_user_preserves_wf unit Demo.hash tt 5 Demo.user_data Demo.db0 H)].
Defined.

Lemma create_user_lookup_witness :
  db_wf Demo.db0
  /\ create_user unit Demo.hash tt 5 Demo.user_data Demo.db0
     = (inr Demo.created, mkDB [Demo.admin; Demo.created] 3)
  /\ get_user_by_id (mkDB [Demo.admin; Demo.created] 3) (User.id Demo.created) = Some Demo.created
  /\ get_user_by_username (mkDB [Demo.admin; Demo.created] 3) (User.username Demo.created)
     = Some Demo.created.
Proof.
  assert (H1 : db_wf Demo.db0) by solve_db_wf.
  assert (H2 : create_user unit Demo.hash tt 5 Demo.user_data Demo.db0
               = (inr Demo.created, mkDB [Demo.admin; Demo.created] 3)) by reflexivity.
  split; [exact H1|]. split; [exact H2|].
  exact (create_user_lookup unit Demo.hash tt 5 Demo.user_data Demo.db0 _ _ H1 H2).
Defined.

Lemma authenticate_user_preserves_wf_witness :
  db_wf Demo.db0 /\ db_wf (snd (authenticate_user Demo.verify 100 200 Demo.login0 Demo.db0)).
Proof.
  assert (H : db_wf Demo.db0) by solve_db_wf.
  split; [exact H|exact (authenticate_user_preserves_wf Demo.verify 100 200 Demo.login0 Demo.db0 H)].
Defined.

Lemma create_user_then_authenticate_witness :
  create_user unit Demo.hash tt 5 Demo.user_data Demo.db0
    = (inr Demo.created, mkDB [Demo.admin; Demo.created] 3)
  /\ UserCreate.is_active Demo.user_data = true
  /\ Demo.verify (UserCreate.password Demo.user_data)
       (Demo.hash (UserCreate.password Demo.user_data) tt) = true
  /\ fst (authenticate_user Demo.verify 100 200
            (UserLogin.mk (UserCreate.username Demo.user_data) (UserCreate.password Demo.user_data))
            (mkDB [Demo.admin; Demo.created] 3))
     = inr (Some (User.touch_last_login 100 200 Demo.created)).
Proof.
  assert (H1 : create_user unit Demo.hash tt 5 Demo.user_data Demo.db0
               = (inr Demo.created, mkDB [Demo.admin; Demo.created] 3)) by reflexivity.
  assert (H2 : UserCreate.is_active Demo.user_data = true) by reflexivity.
  assert (H3 : Demo.verify (UserCreate.password Demo.user_data)
                 (Demo.hash (UserCreate.password Demo.user_data) tt) = true) by reflexivity.
  split; [exact H1|]. split; [exact H2|]. split; [exact H3|].
  exact (create_user_then_authenticate unit Demo.hash Demo.verify tt 5 100 200 Demo.user_data
           Demo.db0 _ _ H1 H2 H3).
Defined.

Lemma create_admin_user_then_login_witness :
  db_wf Demo.empty_db
  /\ create_admin_user unit Demo.hash tt 0 Demo.empty_db
     = (Created Demo.seeded, mkDB [Demo.seeded] 2)
  /\ Demo.verify admin_password (Demo.hash admin_password tt) = true
  /\ db_wf (mkDB [Demo.seeded] 2)
  /\ User.role Demo.seeded = ADMIN /\ User.is_active Demo.seeded = true
  /\ User.is_verified Demo.seeded = true
  /\ fst (authenticate_user Demo.verify 100 200 (UserLogin.mk admin_username admin_password)
            (mkDB [Demo.seeded] 2))
     = inr (Some (User.touch_last_login 100 200 Demo.seeded)).
Proof.
  assert (H1 : db_wf Demo.empty_db) by solve_db_wf.
  assert (H2 : create_admin_user unit Demo.hash tt 0 Demo.empty_db
               = (Created Demo.seeded, mkDB [Demo.seeded] 2)) by reflexivity.
  assert (H3 : Demo.verify admin_password (Demo.hash admin_password tt) = true) by reflexivity.
  split; [exact H1|]. split; [exact H2|]. split; [exact H3|].
  exact (create_admin_user_then_login unit Demo.hash Demo.verify tt 0 100 200 Demo.empty_db
           _ _ H1 H2 H3).
Defined.

Lemma login_then_get_current_user_witness :
  exists tok db',
    db_wf Demo.db0
    /\ login_user Demo.verify Demo.sign Demo.settings0 100 200 Demo.login0 Demo.db0
       = (inr tok, db')
    /\ 500 < 100 + ACCESS_TOKEN_EXPIRE_MINUTES Demo.settings0 * 60
    /\ exists u, get_current_user Demo.sign Demo.settings0 500 (Token.access_token tok) db'
                 = (inr u, db')
         /\ User.username u = UserLogin.username Demo.login0
         /\ User.last_login u = Some 100.
Proof.
  assert (H1 : db_wf Demo.db0) by solve_db_wf.
  assert (Hl : login_user Demo.verify Demo.sign Demo.settings0 100 200 Demo.login0 Demo.db0
               = (inr (Token.mk (create_access_token Demo.sign "secret" 100
                                   (TokenData.mk "admin" 1 "admin") 1800) "bearer" 1800),
                  mkDB [User.touch_last_login 100 200 Demo.admin] 2)) by reflexivity.
  assert (H3 : 500 < 100 + ACCESS_TOKEN_EXPIRE_MINUTES Demo.settings0 * 60)
    by (vm_compute; reflexivity).
  eexists; eexists.
  split; [exact H1|]. split; [exact Hl|]. split; [exact H3|].
  exact (login_then_get_current_user Demo.verify Demo.sign Demo.settings0 100 200 500 Demo.login0
           Demo.db0 _ _ H1 Hl H3).
Defined.

Lemma register_error_keeps_store_witness :
  fst (register unit Demo.hash Demo.sign Demo.validate_email Demo.settings0 500 Demo.viewer_token tt 5
         Demo.body Demo.db1) = inl forbidden_exc
  /\ snd (register unit Demo.hash Demo.sign Demo.validate_email Demo.settings0 500 Demo.viewer_token tt 5
            Demo.body Demo.db1) = Demo.db1.
Proof.
  assert (H : fst (register unit Demo.hash Demo.sign Demo.validate_email Demo.settings0 500
                     Demo.viewer_token tt 5 Demo.body Demo.db1) = inl forbidden_exc)
    by reflexivity.
  split; [exact H|].
  exact (register_error_keeps_store unit Demo.hash Demo.sign Demo.validate_email Demo.settings0 500
           Demo.viewer_token tt 5 Demo.body Demo.db1 _ H).
Defined.

Lemma register_non_admin_forbidden_witness :
  get_current_user Demo.sign Demo.settings0 500 Demo.viewer_token Demo.db1
    = (inr Demo.viewer, Demo.db1)
  /\ User.role Demo.viewer <> ADMIN
  /\ register unit Demo.hash Demo.sign Demo.validate_email Demo.settings0 500 Demo.viewer_token tt 5
       Demo.body Demo.db1 = (inl forbidden_exc, Demo.db1).
Proof.
  assert (H1 : get_current_user Demo.sign Demo.settings0 500 Demo.viewer_token Demo.db1
               = (inr Demo.viewer, Demo.db1)) by reflexivity.
  assert (H2 : User.role Demo.viewer <> ADMIN) by discriminate.
  split; [exact H1|]. split; [exact H2|].
  exact (register_non_admin_forbidden unit Demo.hash Demo.sign Demo.validate_email Demo.settings0 500
           Demo.viewer_token tt 5 Demo.body Demo.db1 Demo.viewer H1 H2).
Defined.

Lemma register_success_witness :
  fst (register unit Demo.hash Demo.sign Demo.validate_email Demo.settings0 500 Demo.admin_token tt 5
         Demo.body Demo.db0) = inr (UserResponse.of_user Demo.created)
  /\ exists admin u,
       get_current_user Demo.sign Demo.settings0 500 Demo.admin_token Demo.db0
         = (inr admin, Demo.db0)
       /\ User.role admin = ADMIN
       /\ snd (register unit Demo.hash Demo.sign Demo.validate_email Demo.settings0 500 Demo.admin_token
                 tt 5 Demo.body Demo.db0) = mkDB (users Demo.db0 ++ [u]) (next_id Demo.db0 + 1)
       /\ UserResponse.of_user Demo.created = UserResponse.of_user u.
Proof.
  assert (H : fst (register unit Demo.hash Demo.sign Demo.validate_email Demo.settings0 500
                     Demo.admin_token tt 5 Demo.body Demo.db0)
              = inr (UserResponse.of_user Demo.created)) by reflexivity.
  split; [exact H|].
  exact (register_success unit Demo.hash Demo.sign Demo.validate_email Demo.settings0 500
           Demo.admin_token tt 5 Demo.body Demo.db0 _ H).
Defined.
